(** * VisionMate backend (src/app.py): shared detection state and watchdog

    Shallow embedding of the Flask backend of VisionMate.  The module-level
    dict [detection_state] becomes the record [state]; each request handler
    becomes a function from the current state (and the clock readings it
    takes) to a response and the next state; the body of the loop of
    [auto_reset_worker] becomes [auto_reset_tick].

    Representation choices:
    - wall-clock instants ([datetime.now()]) are [Z] microseconds, the
      resolution of Python's [datetime]; [timestamp] holds the instant whose
      [isoformat()] is stored;
    - a JSON request body is the Python value [json.loads] yields: [None],
      bool, int, float (finite values, as rationals), str, list or dict; a
      dict is its association list of (distinct) keys;
    - strings are Rocq strings of ASCII text. *)

From Stdlib Require Import String Ascii List ZArith QArith Bool Lia.
Import ListNotations.
Open Scope Z_scope.
Open Scope string_scope.
Set Warnings "-register-all".

(** ** Python values produced by [request.get_json()] *)

Inductive json : Type :=
| JNull
| JBool (b : bool)
| JInt (z : Z)
| JFloat (q : Q)
| JStr (s : string)
| JList (l : list json)
| JDict (kv : list (string * json)).

(** Python truthiness ([if not data]). *)
Definition truthy (v : json) : bool :=
  match v with
  | JNull => false
  | JBool b => b
  | JInt z => negb (Z.eqb z 0)
  | JFloat q => negb (Qeq_bool q 0)
  | JStr s => negb (String.eqb s "")
  | JList l => match l with [] => false | _ => true end
  | JDict kv => match kv with [] => false | _ => true end
  end.

(** [dict.get(key, default)]. *)
Fixpoint dict_get (kv : list (string * json)) (key : string) (default : json) : json :=
  match kv with
  | [] => default
  | (k, v) :: rest => if String.eqb k key then v else dict_get rest key default
  end.

(** [str.upper()] on ASCII text: a..z become A..Z, every other character
    is kept. *)
Definition ascii_upper (c : ascii) : ascii :=
  let n := nat_of_ascii c in
  if (97 <=? n)%nat && (n <=? 122)%nat then ascii_of_nat (n - 32) else c.

Fixpoint py_upper (s : string) : string :=
  match s with
  | EmptyString => EmptyString
  | String c rest => String (ascii_upper c) (py_upper rest)
  end.

(** Python exceptions the handlers can meet; [str(e)] is the error text
    sent back with HTTP 500. *)
Inductive py_exc : Type :=
| AttributeError (msg : string)   (* [.get] / [.upper] on a value lacking it *)
| FormatError (msg : string)      (* [format(confidence, '.2f')] refused *)
| HTTPException (msg : string).   (* raised by [request.get_json()] *)

(** Outcome of Flask's [request.get_json()]: the parsed value ([JNull] is
    the [None] it returns for a null body, and for a request without a JSON
    content type in Flask versions that return [None] there), or the
    exception it raises (a body that does not parse, or a missing JSON
    content type in Flask versions that raise). *)
Inductive get_json_result : Type :=
| GJValue (v : json)
| GJRaise (e : py_exc).

(** [value.upper()] where [value] is the result of [data.get('position', 'STOP')]:
    only a [str] has [.upper]. *)
Definition upper_of (v : json) : option string :=
  match v with
  | JStr s => Some (py_upper s)
  | _ => None
  end.

(** [f"{confidence:.2f}"] succeeds for bool, int and float; an int is first
    converted to float, which overflows from 2^1024 - 2^970 on. *)
Definition format_2f_ok (v : json) : bool :=
  match v with
  | JBool _ => true
  | JInt z => (Z.abs z <? 2 ^ 1024 - 2 ^ 970)%Z
  | JFloat _ => true
  | _ => false
  end.

(** ** The global [detection_state] *)

Record state : Type := mkState {
  position : string;
  timestamp : Z;
  confidence : json;
  object_detected : json;
  last_update : option Z
}.

(** The dict created at import time, [t0] being its [datetime.now()]. *)
Definition init_state (t0 : Z) : state :=
  {| position := "STOP"; timestamp := t0; confidence := JFloat 0%Q;
     object_detected := JBool false; last_update := None |}.

Definition AUTO_RESET_SECONDS_us : Z := 2000000.

Definition valid_positions : list string := ["LEFT"; "RIGHT"; "CENTER"; "STOP"].

Definition is_valid_position (p : string) : bool :=
  List.existsb (String.eqb p) valid_positions.

Definition invalid_position_msg : string :=
  "Invalid position. Must be one of: ['LEFT', 'RIGHT', 'CENTER', 'STOP']".

(** ** HTTP responses *)

Inductive body : Type :=
| BError (msg : string)                     (* {'error': msg} *)
| BException (e : py_exc)                   (* {'error': str(e)} *)
| BDetectionOk (current_state : state)      (* {'success', 'message', 'current_state'} *)
| BManualOk (msg : string).                 (* {'success', 'message'} *)

Record response : Type := mkResponse { status : Z; resp_body : body }.

(** ** [update_detection] (POST /api/detection)

    [t1] and [t2] are the two [datetime.now()] readings of lines 102 and 103. *)
Definition update_detection (st : state) (gj : get_json_result) (t1 t2 : Z)
  : response * state :=
  match gj with
  | GJRaise e => (mkResponse 500 (BException e), st)
  | GJValue data =>
      if negb (truthy data) then (mkResponse 400 (BError "No data provided"), st)
      else
        match data with
        | JDict d =>
            match upper_of (dict_get d "position" (JStr "STOP")) with
            | None => (mkResponse 500 (BException
                         (AttributeError "object has no attribute 'upper'")), st)
            | Some pos =>
                let conf := dict_get d "confidence" (JFloat 0%Q) in
                let od := dict_get d "object_detected" (JBool false) in
                if negb (is_valid_position pos)
                then (mkResponse 400 (BError invalid_position_msg), st)
                else
                  let st' := {| position := pos; confidence := conf;
                                object_detected := od; timestamp := t1;
                                last_update := Some t2 |} in
                  (* the log line formats [confidence] with [:.2f] *)
                  if format_2f_ok conf
                  then (mkResponse 200 (BDetectionOk st'), st')
                  else (mkResponse 500 (BException
                          (FormatError "unsupported format string for confidence")), st')
            end
        | _ => (mkResponse 500 (BException
                  (AttributeError "object has no attribute 'get'")), st)
        end
  end.

(** ** [manual_control] (POST /api/manual) *)
Definition manual_control (st : state) (gj : get_json_result) (t1 t2 : Z)
  : response * state :=
  match gj with
  | GJRaise e => (mkResponse 500 (BException e), st)
  | GJValue (JDict d) =>
      match upper_of (dict_get d "position" (JStr "STOP")) with
      | None => (mkResponse 500 (BException
                   (AttributeError "object has no attribute 'upper'")), st)
      | Some pos =>
          if negb (is_valid_position pos)
          then (mkResponse 400 (BError invalid_position_msg), st)
          else
            let st' := {| position := pos; timestamp := t1;
                          last_update := Some t2;
                          object_detected := JBool (negb (String.eqb pos "STOP"));
                          confidence := confidence st |} in
            (mkResponse 200 (BManualOk ("Motors set to " ++ pos)), st')
      end
  | GJValue _ => (mkResponse 500 (BException
                   (AttributeError "object has no attribute 'get'")), st)
  end.

(** ** [get_position] (GET /api/position) *)
Definition get_position (st : state) : string * Z * json :=
  (position st, timestamp st, object_detected st).

(** ** One iteration of [auto_reset_worker] after its [time.sleep(0.5)]

    [n1] is the reading of line 33, [n2] that of line 40.  [time_diff] is
    [total_seconds()] of a microsecond count, correctly rounded, so
    [time_diff > 2.0] holds exactly when more than 2000000 microseconds
    elapsed.  A [datetime] is always truthy, so [if last_update] tests for
    [None].  The boolean is [true] when the reset branch (the
    [[AUTO-RESET]] log line and the three assignments) ran. *)
Definition auto_reset_tick (st : state) (n1 n2 : Z) : state * bool :=
  match last_update st with
  | None => (st, false)
  | Some lu =>
      let time_diff := n1 - lu in
      if Z.ltb AUTO_RESET_SECONDS_us time_diff && negb (String.eqb (position st) "STOP")
      then ({| position := "STOP"; object_detected := JBool false;
               timestamp := n2; confidence := confidence st;
               last_update := last_update st |}, true)
      else (st, false)
  end.

(** ** Runs of the process

    Every access to [detection_state] takes [state_lock], so a run is a
    sequence of whole operations, each carrying the clock readings it
    takes. *)

Inductive event : Type :=
| EDetection (gj : get_json_result) (t1 t2 : Z)   (* POST /api/detection *)
| EManual (gj : get_json_result) (t1 t2 : Z)      (* POST /api/manual *)
| ETick (n1 n2 : Z)                               (* one watchdog iteration *)
| EReadPosition (t : Z).                          (* GET /api/position *)

Inductive observation : Type :=
| OResponse (r : response)
| OTick (reset_fired : bool)
| OPosition (p : string * Z * json).

Definition step (st : state) (e : event) : state * observation :=
  match e with
  | EDetection gj t1 t2 =>
      let '(r, st') := update_detection st gj t1 t2 in (st', OResponse r)
  | EManual gj t1 t2 =>
      let '(r, st') := manual_control st gj t1 t2 in (st', OResponse r)
  | ETick n1 n2 =>
      let '(st', fired) := auto_reset_tick st n1 n2 in (st', OTick fired)
  | EReadPosition _ => (st, OPosition (get_position st))
  end.

Fixpoint run (st : state) (evs : list event) : state * list observation :=
  match evs with
  | [] => (st, [])
  | e :: rest =>
      let '(st1, o) := step st e in
      let '(st2, os) := run st1 rest in
      (st2, o :: os)
  end.

(** Events that are not external writes (neither POST handler). *)
Definition is_external_write (e : event) : bool :=
  match e with
  | EDetection _ _ _ | EManual _ _ _ => true
  | _ => false
  end.

(** Clock readings ([n1]) of the watchdog iterations of a run, in order. *)
Fixpoint tick_times (evs : list event) : list Z :=
  match evs with
  | [] => []
  | ETick n1 _ :: rest => n1 :: tick_times rest
  | _ :: rest => tick_times rest
  end.

(** Consecutive elements of a list of instants are at most [g] apart. *)
Fixpoint gaps_le (g : Z) (l : list Z) : bool :=
  match l with
  | x :: ((y :: _) as rest) => Z.leb (y - x) g && gaps_le g rest
  | _ => true
  end.

(** Consecutive elements are at least [g] apart: the loop sleeps
    [time.sleep(0.5)] before each iteration, and a sleep never returns
    early. *)
Fixpoint gaps_ge (g : Z) (l : list Z) : bool :=
  match l with
  | x :: ((y :: _) as rest) => Z.leb g (y - x) && gaps_ge g rest
  | _ => true
  end.

Definition POLL_INTERVAL_us : Z := 500000.

(** The clock reading an event would store in [timestamp]: line 102 for
    POST /api/detection, line 146 for POST /api/manual, line 40 for the
    watchdog; a read stores nothing. *)
Definition event_stamp (e : event) : Z :=
  match e with
  | EDetection _ t1 _ | EManual _ t1 _ => t1
  | ETick _ n2 => n2
  | EReadPosition t => t
  end.

Definition is_detection (e : event) : bool :=
  match e with
  | EDetection _ _ _ => true
  | _ => false
  end.

(** The [object_detected] that [manual_control] derives from a position. *)
Definition od_of_position (p : string) : json := JBool (negb (String.eqb p "STOP")).

(** The request body of the end-to-end scenario of the spec. *)
Definition left_body : get_json_result :=
  GJValue (JDict [("position", JStr "left"); ("confidence", JFloat (87 # 100));
                  ("object_detected", JBool true)]).

(** Small evaluations of the embedding. *)
Example py_upper_left : py_upper "left" = "LEFT".
Proof. reflexivity. Qed.

Example detection_left :
  update_detection (init_state 0) (GJValue (JDict [("position", JStr "left");
     ("confidence", JFloat (87 # 100)); ("object_detected", JBool true)])) 5 6
  = let st' := {| position := "LEFT"; timestamp := 5; confidence := JFloat (87 # 100);
                  object_detected := JBool true; last_update := Some 6 |} in
    (mkResponse 200 (BDetectionOk st'), st').
Proof. reflexivity. Qed.

Example manual_bogus :
  manual_control (init_state 0) (GJValue (JDict [("position", JStr "bogus")])) 5 6
  = (mkResponse 400 (BError invalid_position_msg), init_state 0).
Proof. reflexivity. Qed.

(** ** Watchdog iteration *)

(** C1: an iteration of the watchdog performs the forced reset (position
    STOP, object_detected False, fresh timestamp) exactly when [last_update]
    is set, more than AUTO_RESET_SECONDS elapsed since it and the position
    is not STOP; in every other case it leaves the state record unchanged. *)
Theorem auto_reset_tick_iff :
  forall st n1 n2,
    (snd (auto_reset_tick st n1 n2) = true <->
       exists lu, last_update st = Some lu /\
                  n1 - lu > AUTO_RESET_SECONDS_us /\ position st <> "STOP")
    /\ (snd (auto_reset_tick st n1 n2) = true ->
        fst (auto_reset_tick st n1 n2) =
          {| position := "STOP"; timestamp := n2; confidence := confidence st;
             object_detected := JBool false; last_update := last_update st |})
    /\ (snd (auto_reset_tick st n1 n2) = false ->
        fst (auto_reset_tick st n1 n2) = st).
Proof.
  intros [p ts c od [lu|]] n1 n2; unfold auto_reset_tick; simpl.
  - destruct (Z.ltb_spec AUTO_RESET_SECONDS_us (n1 - lu)) as [Hlt|Hge];
      destruct (String.eqb_spec p "STOP") as [Hs|Hs]; simpl;
      repeat split; intros; try discriminate; try reflexivity.
    + destruct H as [lu' [Heq [_ Hn]]]; congruence.
    + exists lu; repeat split; auto; lia.
    + destruct H as [lu' [Heq [_ Hn]]]; congruence.
    + destruct H as [lu' [Heq [Hgt _]]]; inversion Heq; subst; lia.
  - repeat split; intros; try discriminate; try reflexivity.
    destruct H as [lu' [Heq _]]; discriminate.
Qed.

(** C3: the watchdog's forced reset (indeed any watchdog iteration) changes
    at most position, object_detected and timestamp: confidence and
    last_update are always kept. *)
Theorem auto_reset_tick_frame :
  forall st n1 n2,
    exists p ts od,
      fst (auto_reset_tick st n1 n2) =
        {| position := p; timestamp := ts; confidence := confidence st;
           object_detected := od; last_update := last_update st |}.
Proof.
  intros [p ts c od lu] n1 n2; unfold auto_reset_tick; simpl.
  destruct lu as [lu|].
  - destruct (Z.ltb AUTO_RESET_SECONDS_us (n1 - lu) && negb (String.eqb p "STOP")).
    + eexists _, _, _; reflexivity.
    + exists p, ts, od; reflexivity.
  - exists p, ts, od; reflexivity.
Qed.

(** ** Request handlers *)

Lemma dict_get_nil_default :
  forall k def, dict_get [] k def = def.
Proof. reflexivity. Qed.

Lemma dict_get_absent :
  forall d k def, ~ In k (map fst d) -> dict_get d k def = def.
Proof.
  induction d as [|[k' v] d IH]; intros k def Hn; simpl in *; auto.
  destruct (String.eqb_spec k' k); [exfalso; auto | auto].
Qed.

Lemma STOP_valid : is_valid_position (py_upper "STOP") = true.
Proof. reflexivity. Qed.

(** C5: a position string whose uppercased form is not one of LEFT, RIGHT,
    CENTER, STOP makes both POST /api/detection and POST /api/manual answer
    HTTP 400 with the message listing the valid values, and leaves every
    field of the state unchanged. *)
Theorem invalid_position_rejected :
  forall st d p t1 t2,
    dict_get d "position" (JStr "STOP") = JStr p ->
    is_valid_position (py_upper p) = false ->
    update_detection st (GJValue (JDict d)) t1 t2
      = (mkResponse 400 (BError invalid_position_msg), st)
    /\ manual_control st (GJValue (JDict d)) t1 t2
      = (mkResponse 400 (BError invalid_position_msg), st).
Proof.
  intros st d p t1 t2 Hget Hinv.
  destruct d as [|kv d'].
  - rewrite dict_get_nil_default in Hget; inversion Hget; subst.
    rewrite STOP_valid in Hinv; discriminate.
  - unfold update_detection, manual_control, upper_of; simpl truthy.
    rewrite Hget; cbv beta iota zeta; rewrite Hinv; split; reflexivity.
Qed.

(** C9: for a valid position P, POST /api/manual sets position to the
    uppercased P, object_detected to the boolean (uppercased P != 'STOP'),
    timestamp and last_update to its clock readings, and keeps confidence. *)
Theorem manual_control_valid :
  forall st d P t1 t2,
    dict_get d "position" (JStr "STOP") = JStr P ->
    is_valid_position (py_upper P) = true ->
    manual_control st (GJValue (JDict d)) t1 t2 =
      (mkResponse 200 (BManualOk ("Motors set to " ++ py_upper P)),
       {| position := py_upper P; timestamp := t1;
          confidence := confidence st;
          object_detected := JBool (negb (String.eqb (py_upper P) "STOP"));
          last_update := Some t2 |}).
Proof.
  intros st d P t1 t2 Hget Hval.
  unfold manual_control, upper_of; rewrite Hget; cbv beta iota zeta.
  rewrite Hval; reflexivity.
Qed.

(** For a valid position and a confidence that [:.2f] can format, POST
    /api/detection stores the uppercased position and the given confidence
    and object_detected (defaults for absent keys), stamps both clock
    readings and answers 200 with the updated state. *)
Lemma update_detection_valid_formattable :
  forall st d p t1 t2,
    dict_get d "position" (JStr "STOP") = JStr p ->
    is_valid_position (py_upper p) = true ->
    d <> [] ->
    format_2f_ok (dict_get d "confidence" (JFloat 0%Q)) = true ->
    let st' := {| position := py_upper p; timestamp := t1;
                  confidence := dict_get d "confidence" (JFloat 0%Q);
                  object_detected := dict_get d "object_detected" (JBool false);
                  last_update := Some t2 |} in
    update_detection st (GJValue (JDict d)) t1 t2 = (mkResponse 200 (BDetectionOk st'), st').
Proof.
  intros st d p t1 t2 Hget Hval Hne Hfmt st'.
  destruct d as [|kv d']; [congruence|].
  unfold update_detection, upper_of; simpl truthy.
  rewrite Hget; cbv beta iota zeta; rewrite Hval, Hfmt; reflexivity.
Qed.

(** C4 (failing input): with a valid position and [null] confidence (what
    [JSON.stringify] makes of [NaN]), POST /api/detection first overwrites
    the state, then its log line [f"{confidence:.2f}"] raises, and the
    request is answered with HTTP 500 instead of the updated snapshot. *)
Theorem update_detection_null_confidence :
  let st0 := init_state 0 in
  let req := GJValue (JDict [("position", JStr "left"); ("confidence", JNull);
                             ("object_detected", JBool true)]) in
  status (fst (update_detection st0 req 10 11)) = 500
  /\ snd (update_detection st0 req 10 11) =
       {| position := "LEFT"; timestamp := 10; confidence := JNull;
          object_detected := JBool true; last_update := Some 11 |}.
Proof. split; reflexivity. Qed.

(** C7 (counterexample): a body that [get_json()] cannot decode (it raises
    [BadRequest]) is answered with HTTP 500 by the catch-all of
    POST /api/detection, not with 400; and POST /api/manual answers a
    missing body ([get_json()] returning [None]) with HTTP 500, since
    [None.get] raises. *)
Lemma malformed_body_is_500 :
  status (fst (update_detection (init_state 0)
     (GJRaise (HTTPException "400 Bad Request: Failed to decode JSON object")) 1 2)) = 500
  /\ status (fst (manual_control (init_state 0) (GJValue JNull) 1 2)) = 500.
Proof. split; reflexivity. Qed.

(** C7 (as the code behaves): when [get_json()] raises, both POST handlers
    answer HTTP 500 carrying [str(e)] and keep the state; when it returns
    [None] (missing body), POST /api/detection answers HTTP 400 with
    'No data provided', a message that does not list the valid values. *)
Theorem bad_body_responses :
  forall st e t1 t2,
    update_detection st (GJRaise e) t1 t2 = (mkResponse 500 (BException e), st)
    /\ manual_control st (GJRaise e) t1 t2 = (mkResponse 500 (BException e), st)
    /\ update_detection st (GJValue JNull) t1 t2
         = (mkResponse 400 (BError "No data provided"), st).
Proof. intros; repeat split. Qed.

(** C10: POST /api/detection rejects a body that is falsy ([{}], [[]],
    [""], [0], [false], [null]) with HTTP 400 'No data provided' and keeps
    the state; the defaults STOP, 0.0 and False are used only for keys
    absent from a non-empty dict body. *)
Theorem detection_falsy_body_and_defaults :
  forall st t1 t2,
    (forall v, truthy v = false ->
       update_detection st (GJValue v) t1 t2
         = (mkResponse 400 (BError "No data provided"), st))
    /\ (forall d, d <> [] ->
          ~ In "position" (map fst d) ->
          ~ In "confidence" (map fst d) ->
          ~ In "object_detected" (map fst d) ->
          let st' := {| position := "STOP"; timestamp := t1; confidence := JFloat 0%Q;
                        object_detected := JBool false; last_update := Some t2 |} in
          update_detection st (GJValue (JDict d)) t1 t2
            = (mkResponse 200 (BDetectionOk st'), st')).
Proof.
  intros st t1 t2; split.
  - intros v Hf; unfold update_detection; rewrite Hf; reflexivity.
  - intros d Hne Hp Hc Ho st'.
    pose proof (dict_get_absent d "position" (JStr "STOP") Hp) as Gp.
    pose proof (dict_get_absent d "confidence" (JFloat 0%Q) Hc) as Gc.
    pose proof (dict_get_absent d "object_detected" (JBool false) Ho) as Go.
    rewrite (update_detection_valid_formattable st d "STOP" t1 t2 Gp STOP_valid Hne);
      [|rewrite Gc; reflexivity].
    unfold st'; rewrite Gc, Go; reflexivity.
Qed.

(** ** Runs *)

Lemma run_cons :
  forall st e rest,
    run st (e :: rest) =
      (fst (run (fst (step st e)) rest),
       snd (step st e) :: snd (run (fst (step st e)) rest)).
Proof.
  intros st e rest; simpl.
  destruct (step st e) as [st1 o]; simpl; destruct (run st1 rest); reflexivity.
Qed.

Lemma run_snoc :
  forall evs st e,
    run st (evs ++ [e])%list =
      (fst (step (fst (run st evs)) e),
       (snd (run st evs) ++ [snd (step (fst (run st evs)) e)])%list).
Proof.
  induction evs as [|e' evs IH]; intros st e.
  - simpl; destruct (step st e); reflexivity.
  - change ((e' :: evs) ++ [e])%list with (e' :: (evs ++ [e]))%list.
    rewrite (run_cons st e' (evs ++ [e])%list), IH, (run_cons st e' evs).
    reflexivity.
Qed.

Lemma valid_position_In :
  forall p, is_valid_position p = true -> In p valid_positions.
Proof.
  intros p V; apply existsb_exists in V as [x [Hx Heq]].
  apply String.eqb_eq in Heq; subst x; exact Hx.
Qed.

Lemma update_detection_position :
  forall st gj t1 t2,
    snd (update_detection st gj t1 t2) = st
    \/ In (position (snd (update_detection st gj t1 t2))) valid_positions.
Proof.
  intros st gj t1 t2; unfold update_detection.
  destruct gj as [v | exn]; [|left; reflexivity].
  destruct (truthy v); simpl; [|left; reflexivity].
  destruct v as [| b | z | q | s | l | d]; try (left; reflexivity).
  destruct (upper_of (dict_get d "position" (JStr "STOP"))) as [pos|];
    [|left; reflexivity].
  destruct (is_valid_position pos) eqn:V; simpl; [|left; reflexivity].
  right; destruct (format_2f_ok _); apply valid_position_In, V.
Qed.

Lemma manual_control_position :
  forall st gj t1 t2,
    snd (manual_control st gj t1 t2) = st
    \/ In (position (snd (manual_control st gj t1 t2))) valid_positions.
Proof.
  intros st gj t1 t2; unfold manual_control.
  destruct gj as [v | exn]; [|left; reflexivity].
  destruct v as [| b | z | q | s | l | d]; try (left; reflexivity).
  destruct (upper_of (dict_get d "position" (JStr "STOP"))) as [pos|];
    [|left; reflexivity].
  destruct (is_valid_position pos) eqn:V; simpl; [|left; reflexivity].
  right; apply valid_position_In, V.
Qed.

Lemma step_keeps_valid_position :
  forall st e,
    In (position st) valid_positions ->
    In (position (fst (step st e))) valid_positions.
Proof.
  intros st e Hin.
  destruct e as [gj t1 t2 | gj t1 t2 | n1 n2 | t]; simpl.
  - pose proof (update_detection_position st gj t1 t2) as H.
    destruct (update_detection st gj t1 t2) as [r st']; simpl in *.
    destruct H as [->|H]; assumption.
  - pose proof (manual_control_position st gj t1 t2) as H.
    destruct (manual_control st gj t1 t2) as [r st']; simpl in *.
    destruct H as [->|H]; assumption.
  - unfold auto_reset_tick.
    destruct (last_update st) as [lu|]; [|exact Hin].
    destruct (_ && _); simpl; [right; right; right; left; reflexivity | exact Hin].
  - exact Hin.
Qed.

(** C6: in every state reached from the initial [detection_state] by any
    sequence of POST /api/detection, POST /api/manual, watchdog iterations
    and reads, the position is one of LEFT, RIGHT, CENTER, STOP. *)
Theorem reachable_position_valid :
  forall t0 evs,
    In (position (fst (run (init_state t0) evs))) valid_positions.
Proof.
  intros t0 evs.
  assert (H0 : In (position (init_state t0)) valid_positions)
    by (simpl; right; right; right; left; reflexivity).
  revert H0; generalize (init_state t0) as st.
  induction evs as [|e evs IH]; intros st Hst; [exact Hst|].
  rewrite run_cons; simpl fst; apply IH, step_keeps_valid_position, Hst.
Qed.

Lemma auto_reset_tick_STOP :
  forall st n1 n2, position st = "STOP" -> auto_reset_tick st n1 n2 = (st, false).
Proof.
  intros st n1 n2 Hs; unfold auto_reset_tick; rewrite Hs; simpl.
  destruct (last_update st); [rewrite andb_false_r|]; reflexivity.
Qed.

Lemma run_from_STOP_without_writes :
  forall evs st,
    position st = "STOP" ->
    forallb (fun e => negb (is_external_write e)) evs = true ->
    fst (run st evs) = st /\ ~ In (OTick true) (snd (run st evs)).
Proof.
  induction evs as [|e evs IH]; intros st Hs Hw; [split; [reflexivity | intros []]|].
  simpl in Hw; apply andb_prop in Hw as [He Hw].
  assert (Hstep : step st e = (st, match e with ETick _ _ => OTick false
                                             | _ => OPosition (get_position st) end)).
  { destruct e as [gj t1 t2 | gj t1 t2 | n1 n2 | t]; try discriminate; simpl.
    - rewrite auto_reset_tick_STOP by exact Hs; reflexivity.
    - reflexivity. }
  rewrite run_cons, Hstep; simpl.
  destruct (IH st Hs Hw) as [Hst Hno]; split; [exact Hst|].
  intros [Ho | Ho]; [destruct e; discriminate | contradiction].
Qed.

(** C8: once a watchdog iteration has performed the reset to STOP, no
    later iteration performs it again as long as no POST /api/detection or
    POST /api/manual comes in between (whatever the clock readings, hence
    although the staleness condition stays true). *)
Theorem no_second_reset_without_write :
  forall st n1 n2 st' evs,
    auto_reset_tick st n1 n2 = (st', true) ->
    forallb (fun e => negb (is_external_write e)) evs = true ->
    ~ In (OTick true) (snd (run st' evs)).
Proof.
  intros st n1 n2 st' evs Ht Hw.
  assert (Hs : position st' = "STOP").
  { unfold auto_reset_tick in Ht.
    destruct (last_update st); [|discriminate].
    destruct (_ && _); inversion Ht; reflexivity. }
  apply (run_from_STOP_without_writes evs st' Hs Hw).
Qed.

(** ** Staleness of a LEFT write *)

(** The last instant of a chain whose gaps are at most [g] is at most [g]
    after the chain's last inner instant. *)
Lemma gaps_le_last :
  forall g ts x R,
    gaps_le g (x :: ts ++ [R])%list = true ->
    R - g <= x \/ exists t, In t ts /\ R - g <= t.
Proof.
  induction ts as [|t ts IH]; intros x R H.
  - simpl in H; rewrite andb_true_r in H; apply Z.leb_le in H; left; lia.
  - change (gaps_le g (x :: t :: (ts ++ [R]))%list) with
      (Z.leb (t - x) g && gaps_le g (t :: ts ++ [R])%list) in H.
    apply andb_prop in H as [_ H].
    destruct (IH t R H) as [H1 | [t' [Hin H1]]].
    + right; exists t; split; [left; reflexivity | exact H1].
    + right; exists t'; split; [right; exact Hin | exact H1].
Qed.

Lemma tick_times_In :
  forall evs t, In t (tick_times evs) -> exists n2, In (ETick t n2) evs.
Proof.
  induction evs as [|e evs IH]; intros t H; [destruct H|].
  destruct e as [gj t1 t2 | gj t1 t2 | n1 n2 | r]; simpl in H.
  - destruct (IH t H) as [n2 Hn]; exists n2; right; exact Hn.
  - destruct (IH t H) as [n2 Hn]; exists n2; right; exact Hn.
  - destruct H as [-> | H].
    + exists n2; left; reflexivity.
    + destruct (IH t H) as [n2' Hn]; exists n2'; right; exact Hn.
  - destruct (IH t H) as [n2 Hn]; exists n2; right; exact Hn.
Qed.

(** Between external writes the state stays stamped with [last_update = L];
    a STOP position always carries object_detected False; and a watchdog
    iteration reading the clock more than AUTO_RESET_SECONDS after [L]
    leaves the position STOP for good. *)
Lemma run_stale_without_writes :
  forall L evs st,
    forallb (fun e => negb (is_external_write e)) evs = true ->
    last_update st = Some L ->
    (position st = "STOP" -> object_detected st = JBool false) ->
    let st' := fst (run st evs) in
    last_update st' = Some L
    /\ (position st' = "STOP" -> object_detected st' = JBool false)
    /\ ((position st = "STOP"
         \/ exists n1 n2, In (ETick n1 n2) evs /\ L + AUTO_RESET_SECONDS_us < n1) ->
        position st' = "STOP").
Proof.
  intros L; induction evs as [|e evs IH]; intros st Hw Hlu Hod st'.
  - subst st'; simpl; repeat split; auto.
    intros [H | [n1 [n2 [[] _]]]]; exact H.
  - simpl in Hw; apply andb_prop in Hw as [He Hw].
    subst st'; rewrite run_cons; simpl fst.
    destruct e as [gj t1 t2 | gj t1 t2 | n1 n2 | t]; try discriminate.
    + simpl step; unfold auto_reset_tick; rewrite Hlu.
      destruct (Z.ltb_spec AUTO_RESET_SECONDS_us (n1 - L)) as [Hlt | Hge];
        destruct (String.eqb_spec (position st) "STOP") as [Hs | Hs]; simpl.
      * destruct (IH st Hw Hlu Hod) as [A [B C]]; repeat split; auto;
          intros _; apply C; left; exact Hs.
      * destruct (IH {| position := "STOP"; timestamp := n2;
                        confidence := confidence st; object_detected := JBool false;
                        last_update := Some L |} Hw eq_refl (fun _ => eq_refl))
          as [A [B C]].
        split; [exact A | split; [exact B |]].
        intros _; apply C; left; reflexivity.
      * destruct (IH st Hw Hlu Hod) as [A [B C]]; repeat split; auto;
          intros _; apply C; left; exact Hs.
      * destruct (IH st Hw Hlu Hod) as [A [B C]]; repeat split; auto.
        intros [H | [m1 [m2 [[Heq | Hin] Hgt]]]]; [contradiction | | ].
        -- inversion Heq; subst; lia.
        -- apply C; right; exists m1, m2; split; assumption.
    + simpl step; destruct (IH st Hw Hlu Hod) as [A [B C]]; repeat split; auto.
      intros [H | [m1 [m2 [[Heq | Hin] Hgt]]]]; [apply C; left; exact H | discriminate |].
      apply C; right; exists m1, m2; split; assumption.
Qed.

(** C2 (as the code behaves): after a POST /api/detection that leaves
    position LEFT stamped [last_update = L], with no external write
    afterwards, a GET /api/position at [R] returns STOP with
    object_detected False provided every gap between consecutive watchdog
    clock readings (counting from [L] and up to [R]) is at most [g] and
    [R > L + AUTO_RESET_SECONDS + g].  The loop sleeps 0.5 s and then runs
    its body, so [g] is 500 ms plus the loop's own delays. *)
Theorem stale_left_write_read_as_STOP :
  forall st gj t1 L pre g R,
    position (snd (update_detection st gj t1 L)) = "LEFT" ->
    last_update (snd (update_detection st gj t1 L)) = Some L ->
    forallb (fun e => negb (is_external_write e)) pre = true ->
    gaps_le g (L :: tick_times pre ++ [R])%list = true ->
    L + AUTO_RESET_SECONDS_us + g < R ->
    exists ts,
      last (snd (run (snd (update_detection st gj t1 L))
                     (pre ++ [EReadPosition R])%list)) (OTick false)
      = OPosition ("STOP", ts, JBool false).
Proof.
  intros st gj t1 L pre g R Hpos Hlu Hw Hgap Hlate.
  set (st1 := snd (update_detection st gj t1 L)) in *.
  assert (Hod : position st1 = "STOP" -> object_detected st1 = JBool false)
    by (rewrite Hpos; discriminate).
  destruct (run_stale_without_writes L pre st1 Hw Hlu Hod) as [_ [B C]].
  assert (Hstop : position (fst (run st1 pre)) = "STOP").
  { apply C; right.
    destruct (gaps_le_last g (tick_times pre) L R Hgap) as [H | [t [Hin Ht]]];
      [unfold AUTO_RESET_SECONDS_us in *; lia|].
    destruct (tick_times_In pre t Hin) as [n2 Hn].
    exists t, n2; split; [exact Hn | lia]. }
  rewrite run_snoc; simpl snd; rewrite last_last; simpl.
  exists (timestamp (fst (run st1 pre))).
  unfold get_position; rewrite Hstop, (B Hstop); reflexivity.
Qed.

(** C2 (counterexample): the watchdog thread starts at -10 us, so its
    iterations come at least 500 ms apart from 499990 us on; a LEFT write
    at 0, iterations at 1999990 us (not yet stale) and 2500010 us (500 ms
    plus 20 us later), and a read at 2500001 us, that is at
    0 + AUTO_RESET_SECONDS + 500.001 ms: the read still sees LEFT with
    object_detected True. *)
Lemma stale_left_read_before_late_tick :
  let evs := [EDetection (GJValue (JDict [("position", JStr "left");
                 ("confidence", JFloat (87 # 100)); ("object_detected", JBool true)])) 0 0;
              ETick 499990 499990; ETick 999990 999990; ETick 1499990 1499990;
              ETick 1999990 1999990; EReadPosition 2500001; ETick 2500010 2500010] in
  gaps_ge POLL_INTERVAL_us ((-10) :: tick_times evs) = true
  /\ 2500001 - 0 - AUTO_RESET_SECONDS_us > POLL_INTERVAL_us
  /\ nth 5 (snd (run (init_state (-10)) evs)) (OTick false)
     = OPosition ("LEFT", 0, JBool true).
Proof. vm_compute; repeat split; reflexivity. Qed.

(** ** Witnesses: the theorems above at concrete inputs *)

Lemma auto_reset_tick_iff_witness :
  snd (auto_reset_tick (snd (update_detection (init_state 0) left_body 0 0)) 2500000 2500001)
    = true
  /\ fst (auto_reset_tick (snd (update_detection (init_state 0) left_body 0 0)) 2500000 2500001)
    = {| position := "STOP"; timestamp := 2500001; confidence := JFloat (87 # 100);
         object_detected := JBool false; last_update := Some 0 |}.
Proof.
  destruct (auto_reset_tick_iff (snd (update_detection (init_state 0) left_body 0 0))
              2500000 2500001) as [Hiff [Hfired _]].
  assert (H : snd (auto_reset_tick (snd (update_detection (init_state 0) left_body 0 0))
                 2500000 2500001) = true).
  { apply Hiff; exists 0; vm_compute; split; [reflexivity | split; [reflexivity | discriminate]]. }
  split; [exact H | rewrite (Hfired H); reflexivity].
Defined.

Lemma invalid_position_rejected_witness :
  manual_control (init_state 0) (GJValue (JDict [("position", JStr "bogus")])) 1 2
    = (mkResponse 400 (BError invalid_position_msg), init_state 0).
Proof.
  apply (invalid_position_rejected (init_state 0) [("position", JStr "bogus")] "bogus" 1 2);
    reflexivity.
Defined.

Lemma manual_control_valid_witness :
  dict_get [("position", JStr "right")] "position" (JStr "STOP") = JStr "right"
  /\ manual_control (init_state 0) (GJValue (JDict [("position", JStr "right")])) 1 2
     = (mkResponse 200 (BManualOk ("Motors set to " ++ "RIGHT")),
        {| position := "RIGHT"; timestamp := 1; confidence := JFloat 0%Q;
           object_detected := JBool true; last_update := Some 2 |}).
Proof.
  split; [reflexivity|].
  apply (manual_control_valid (init_state 0) [("position", JStr "right")] "right" 1 2);
    reflexivity.
Defined.

Lemma no_second_reset_without_write_witness :
  ~ In (OTick true)
      (snd (run (fst (auto_reset_tick
                        (snd (update_detection (init_state 0) left_body 0 0)) 2500000 2500001))
                [ETick 3000000 3000000; EReadPosition 3100000; ETick 3500000 3500000])).
Proof.
  apply (no_second_reset_without_write
           (snd (update_detection (init_state 0) left_body 0 0)) 2500000 2500001);
    reflexivity.
Defined.

Lemma detection_falsy_body_and_defaults_witness :
  update_detection (init_state 0) (GJValue (JDict [])) 1 2
    = (mkResponse 400 (BError "No data provided"), init_state 0)
  /\ update_detection (init_state 0) (GJValue (JDict [("note", JInt 1)])) 1 2
    = (mkResponse 200 (BDetectionOk
         {| position := "STOP"; timestamp := 1; confidence := JFloat 0%Q;
            object_detected := JBool false; last_update := Some 2 |}),
       {| position := "STOP"; timestamp := 1; confidence := JFloat 0%Q;
          object_detected := JBool false; last_update := Some 2 |}).
Proof.
  destruct (detection_falsy_body_and_defaults (init_state 0) 1 2) as [Hf Hd].
  split.
  - apply Hf; reflexivity.
  - apply (Hd [("note", JInt 1)]); [discriminate | simpl; intros [H | []]; discriminate ..].
Defined.

Lemma stale_left_write_read_as_STOP_witness :
  exists ts,
    last (snd (run (snd (update_detection (init_state (-10)) left_body 0 0))
                   [ETick 500020 500020; ETick 1000040 1000040; ETick 1500060 1500060;
                    ETick 2000080 2000080; EReadPosition 2500100])) (OTick false)
    = OPosition ("STOP", ts, JBool false).
Proof.
  apply (stale_left_write_read_as_STOP (init_state (-10)) left_body 0 0
           [ETick 500020 500020; ETick 1000040 1000040; ETick 1500060 1500060;
            ETick 2000080 2000080] 500020 2500100);
    vm_compute; reflexivity.
Defined.

(** ** Further properties of the handlers and the watchdog *)

(** The two outcomes of [update_detection] on the state: untouched, or
    overwritten by a valid position with both clock readings. *)
Lemma update_detection_cases :
  forall st gj t1 t2,
    snd (update_detection st gj t1 t2) = st
    \/ exists pos conf od,
         is_valid_position pos = true
         /\ snd (update_detection st gj t1 t2) =
              {| position := pos; timestamp := t1; confidence := conf;
                 object_detected := od; last_update := Some t2 |}.
Proof.
  intros st gj t1 t2; unfold update_detection.
  destruct gj as [v | exn]; [|left; reflexivity].
  destruct (truthy v); simpl; [|left; reflexivity].
  destruct v as [| b | z | q | s | l | d]; try (left; reflexivity).
  destruct (upper_of (dict_get d "position" (JStr "STOP"))) as [pos|];
    [|left; reflexivity].
  destruct (is_valid_position pos) eqn:V; simpl; [|left; reflexivity].
  right; exists pos, (dict_get d "confidence" (JFloat 0%Q)),
    (dict_get d "object_detected" (JBool false)); split; [exact V|].
  destruct (format_2f_ok _); reflexivity.
Qed.

Lemma manual_control_cases :
  forall st gj t1 t2,
    snd (manual_control st gj t1 t2) = st
    \/ exists pos,
         is_valid_position pos = true
         /\ fst (manual_control st gj t1 t2) = mkResponse 200 (BManualOk ("Motors set to " ++ pos))
         /\ snd (manual_control st gj t1 t2) =
              {| position := pos; timestamp := t1; confidence := confidence st;
                 object_detected := od_of_position pos; last_update := Some t2 |}.
Proof.
  intros st gj t1 t2; unfold manual_control.
  destruct gj as [v | exn]; [|left; reflexivity].
  destruct v as [| b | z | q | s | l | d]; try (left; reflexivity).
  destruct (upper_of (dict_get d "position" (JStr "STOP"))) as [pos|];
    [|left; reflexivity].
  destruct (is_valid_position pos) eqn:V; simpl; [|left; reflexivity].
  right; exists pos; repeat split; exact V.
Qed.

Lemma auto_reset_tick_cases :
  forall st n1 n2,
    fst (auto_reset_tick st n1 n2) = st
    \/ fst (auto_reset_tick st n1 n2) =
         {| position := "STOP"; timestamp := n2; confidence := confidence st;
            object_detected := JBool false; last_update := last_update st |}.
Proof.
  intros st n1 n2; unfold auto_reset_tick.
  destruct (last_update st) as [lu|] eqn:E; [|left; reflexivity].
  destruct (_ && _); [right; rewrite <- E; reflexivity | left; reflexivity].
Qed.

Lemma fst_step_detection :
  forall st gj t1 t2, fst (step st (EDetection gj t1 t2)) = snd (update_detection st gj t1 t2).
Proof. intros; simpl; destruct (update_detection st gj t1 t2); reflexivity. Qed.

Lemma fst_step_manual :
  forall st gj t1 t2, fst (step st (EManual gj t1 t2)) = snd (manual_control st gj t1 t2).
Proof. intros; simpl; destruct (manual_control st gj t1 t2); reflexivity. Qed.

Lemma fst_step_tick :
  forall st n1 n2, fst (step st (ETick n1 n2)) = fst (auto_reset_tick st n1 n2).
Proof. intros; simpl; destruct (auto_reset_tick st n1 n2); reflexivity. Qed.

(** Every operation either leaves the state record exactly as it was or
    stores its own clock reading in [timestamp]: each assignment to
    position or object_detected comes with a fresh timestamp. *)
Theorem step_unchanged_or_stamped :
  forall st e,
    fst (step st e) = st \/ timestamp (fst (step st e)) = event_stamp e.
Proof.
  intros st [gj t1 t2 | gj t1 t2 | n1 n2 | t].
  - rewrite fst_step_detection.
    destruct (update_detection_cases st gj t1 t2) as [H | [pos [c [od [_ H]]]]];
      [left | right; rewrite H]; auto.
  - rewrite fst_step_manual.
    destruct (manual_control_cases st gj t1 t2) as [H | [pos [_ [_ H]]]];
      [left | right; rewrite H]; auto.
  - rewrite fst_step_tick.
    destruct (auto_reset_tick_cases st n1 n2) as [H | H]; [left | right; rewrite H]; auto.
  - left; reflexivity.
Qed.

(** Once some external write has set [last_update], no sequence of
    operations clears it again. *)
Theorem last_update_never_cleared :
  forall evs st lu,
    last_update st = Some lu ->
    exists lu', last_update (fst (run st evs)) = Some lu'.
Proof.
  induction evs as [|e evs IH]; intros st lu H; [exists lu; exact H|].
  rewrite run_cons; simpl fst.
  destruct e as [gj t1 t2 | gj t1 t2 | n1 n2 | t].
  - rewrite fst_step_detection.
    destruct (update_detection_cases st gj t1 t2) as [E | [pos [c [od [_ E]]]]];
      rewrite E; [exact (IH st lu H) | apply (IH _ t2); reflexivity].
  - rewrite fst_step_manual.
    destruct (manual_control_cases st gj t1 t2) as [E | [pos [_ [_ E]]]];
      rewrite E; [exact (IH st lu H) | apply (IH _ t2); reflexivity].
  - rewrite fst_step_tick.
    destruct (auto_reset_tick_cases st n1 n2) as [E | E]; rewrite E;
      [exact (IH st lu H) | apply (IH _ lu); exact H].
  - exact (IH st lu H).
Qed.

(** Without a POST /api/detection, no sequence of operations changes
    [confidence]: POST /api/manual and the watchdog keep it. *)
Theorem confidence_kept_without_detection :
  forall evs st,
    forallb (fun e => negb (is_detection e)) evs = true ->
    confidence (fst (run st evs)) = confidence st.
Proof.
  induction evs as [|e evs IH]; intros st Hw; [reflexivity|].
  simpl in Hw; apply andb_prop in Hw as [He Hw].
  rewrite run_cons; simpl fst; rewrite (IH _ Hw).
  destruct e as [gj t1 t2 | gj t1 t2 | n1 n2 | t]; try discriminate.
  - rewrite fst_step_manual.
    destruct (manual_control_cases st gj t1 t2) as [E | [pos [_ [_ E]]]];
      rewrite E; reflexivity.
  - rewrite fst_step_tick.
    destruct (auto_reset_tick_cases st n1 n2) as [E | E]; rewrite E; reflexivity.
  - reflexivity.
Qed.

(** Without an external write, no sequence of operations changes
    [last_update]. *)
Theorem last_update_kept_without_writes :
  forall evs st,
    forallb (fun e => negb (is_external_write e)) evs = true ->
    last_update (fst (run st evs)) = last_update st.
Proof.
  induction evs as [|e evs IH]; intros st Hw; [reflexivity|].
  simpl in Hw; apply andb_prop in Hw as [He Hw].
  rewrite run_cons; simpl fst; rewrite (IH _ Hw).
  destruct e as [gj t1 t2 | gj t1 t2 | n1 n2 | t]; try discriminate.
  - rewrite fst_step_tick.
    destruct (auto_reset_tick_cases st n1 n2) as [E | E]; rewrite E; reflexivity.
  - reflexivity.
Qed.

(** POST /api/manual changes the state only when it answers HTTP 200. *)
Theorem manual_control_changes_only_on_200 :
  forall st gj t1 t2,
    snd (manual_control st gj t1 t2) <> st ->
    status (fst (manual_control st gj t1 t2)) = 200.
Proof.
  intros st gj t1 t2 Hne.
  destruct (manual_control_cases st gj t1 t2) as [E | [pos [_ [R _]]]];
    [contradiction | rewrite R; reflexivity].
Qed.

(** POST /api/detection never changes the state when it answers 400; the
    only way it changes the state without answering 200 is a dict body whose
    confidence the log line cannot format with [:.2f]. *)
Theorem update_detection_change_without_200 :
  forall st gj t1 t2,
    snd (update_detection st gj t1 t2) <> st ->
    status (fst (update_detection st gj t1 t2)) <> 200 ->
    status (fst (update_detection st gj t1 t2)) = 500
    /\ exists d, gj = GJValue (JDict d)
                 /\ format_2f_ok (dict_get d "confidence" (JFloat 0%Q)) = false.
Proof.
  intros st gj t1 t2; unfold update_detection.
  destruct gj as [v | exn]; [|intros H; contradiction H; reflexivity].
  destruct (truthy v); simpl; [|intros H; contradiction H; reflexivity].
  destruct v as [| b | z | q | s | l | d];
    try (intros H; contradiction H; reflexivity).
  destruct (upper_of (dict_get d "position" (JStr "STOP"))) as [pos|];
    [|intros H; contradiction H; reflexivity].
  destruct (is_valid_position pos); simpl; [|intros H; contradiction H; reflexivity].
  destruct (format_2f_ok (dict_get d "confidence" (JFloat 0%Q))) eqn:F; simpl.
  - intros _ H; contradiction H; reflexivity.
  - intros _ _; split; [reflexivity | exists d; split; [reflexivity | exact F]].
Qed.

Lemma ascii_upper_idem : forall c, ascii_upper (ascii_upper c) = ascii_upper c.
Proof.
  intros c; destruct c as [[] [] [] [] [] [] [] []]; vm_compute; reflexivity.
Qed.

Lemma py_upper_idem : forall s, py_upper (py_upper s) = py_upper s.
Proof.
  induction s as [|c s IH]; simpl; [reflexivity|].
  rewrite ascii_upper_idem, IH; reflexivity.
Qed.

(** Both POST handlers treat the position case-insensitively: a body whose
    leading "position" entry is [s] is handled exactly as the same body
    with [s] uppercased (same response, same new state). *)
Theorem handlers_case_insensitive :
  forall st s rest t1 t2,
    update_detection st (GJValue (JDict (("position", JStr s) :: rest))) t1 t2
      = update_detection st (GJValue (JDict (("position", JStr (py_upper s)) :: rest))) t1 t2
    /\ manual_control st (GJValue (JDict (("position", JStr s) :: rest))) t1 t2
      = manual_control st (GJValue (JDict (("position", JStr (py_upper s)) :: rest))) t1 t2.
Proof.
  intros st s rest t1 t2; unfold update_detection, manual_control, upper_of.
  simpl truthy; simpl dict_get; cbv beta iota; rewrite py_upper_idem; split; reflexivity.
Qed.

(** A "position" that is present but not a string ([null], a number, a
    bool, a list or a dict) has no [.upper]: both POST handlers answer
    HTTP 500 with the [AttributeError] and keep the state. *)
Theorem non_string_position_is_500 :
  forall st d t1 t2,
    upper_of (dict_get d "position" (JStr "STOP")) = None ->
    update_detection st (GJValue (JDict d)) t1 t2
      = (mkResponse 500 (BException (AttributeError "object has no attribute 'upper'")), st)
    /\ manual_control st (GJValue (JDict d)) t1 t2
      = (mkResponse 500 (BException (AttributeError "object has no attribute 'upper'")), st).
Proof.
  intros st d t1 t2 H.
  destruct d as [|kv d']; [discriminate|].
  unfold update_detection, manual_control; simpl truthy; cbv beta iota.
  rewrite H; split; reflexivity.
Qed.

(** A body that is not a JSON object has no [.get]: POST /api/manual
    answers HTTP 500 for every such body (also [null], [[]], [""]), POST
    /api/detection for every truthy one (the falsy ones get 400); neither
    changes the state. *)
Theorem non_dict_body_is_500 :
  forall st v t1 t2,
    (forall d, v <> JDict d) ->
    manual_control st (GJValue v) t1 t2
      = (mkResponse 500 (BException (AttributeError "object has no attribute 'get'")), st)
    /\ (truthy v = true ->
        update_detection st (GJValue v) t1 t2
          = (mkResponse 500 (BException (AttributeError "object has no attribute 'get'")), st)).
Proof.
  intros st v t1 t2 Hnd.
  destruct v as [| b | z | q | s | l | d]; try (exfalso; apply (Hnd d); reflexivity);
    split; try reflexivity; intros Ht; unfold update_detection; rewrite Ht; reflexivity.
Qed.

(** Unlike POST /api/detection, POST /api/manual accepts a dict body
    without "position" (also [{}]) and sets STOP with object_detected False,
    refreshing timestamp and last_update. *)
Theorem manual_control_missing_position :
  forall st d t1 t2,
    ~ In "position" (map fst d) ->
    manual_control st (GJValue (JDict d)) t1 t2 =
      (mkResponse 200 (BManualOk "Motors set to STOP"),
       {| position := "STOP"; timestamp := t1; confidence := confidence st;
          object_detected := JBool false; last_update := Some t2 |}).
Proof.
  intros st d t1 t2 H; unfold manual_control, upper_of.
  rewrite (dict_get_absent d "position" (JStr "STOP") H); reflexivity.
Qed.

(** Before any external write ([last_update] still [None]), the watchdog
    never acts: a run of watchdog iterations and reads leaves the state
    unchanged and no iteration resets, whatever the clock says. *)
Theorem watchdog_inert_before_first_write :
  forall evs st,
    last_update st = None ->
    forallb (fun e => negb (is_external_write e)) evs = true ->
    fst (run st evs) = st /\ ~ In (OTick true) (snd (run st evs)).
Proof.
  induction evs as [|e evs IH]; intros st Hlu Hw; [split; [reflexivity | intros []]|].
  simpl in Hw; apply andb_prop in Hw as [He Hw].
  assert (Hstep : step st e = (st, match e with ETick _ _ => OTick false
                                             | _ => OPosition (get_position st) end)).
  { destruct e as [gj t1 t2 | gj t1 t2 | n1 n2 | t]; try discriminate; simpl.
    - unfold auto_reset_tick; rewrite Hlu; reflexivity.
    - reflexivity. }
  rewrite run_cons, Hstep; simpl.
  destruct (IH st Hlu Hw) as [Hst Hno]; split; [exact Hst|].
  intros [Ho | Ho]; [destruct e; discriminate | contradiction].
Qed.

(** No premature reset: with [last_update = L] and no external write, a run
    whose watchdog iterations all read the clock at most
    AUTO_RESET_SECONDS after [L] leaves the state unchanged and performs no
    reset. *)
Theorem no_reset_within_threshold :
  forall evs st L,
    last_update st = Some L ->
    forallb (fun e => negb (is_external_write e)) evs = true ->
    forallb (fun n => Z.leb (n - L) AUTO_RESET_SECONDS_us) (tick_times evs) = true ->
    fst (run st evs) = st /\ ~ In (OTick true) (snd (run st evs)).
Proof.
  induction evs as [|e evs IH]; intros st L Hlu Hw Ht;
    [split; [reflexivity | intros []]|].
  simpl in Hw; apply andb_prop in Hw as [He Hw].
  destruct e as [gj t1 t2 | gj t1 t2 | n1 n2 | t]; try discriminate.
  - simpl in Ht; apply andb_prop in Ht as [Hn Ht]; apply Z.leb_le in Hn.
    assert (Hstep : step st (ETick n1 n2) = (st, OTick false)).
    { simpl; unfold auto_reset_tick; rewrite Hlu.
      destruct (Z.ltb_spec AUTO_RESET_SECONDS_us (n1 - L)); [lia | reflexivity]. }
    rewrite run_cons, Hstep; simpl.
    destruct (IH st L Hlu Hw Ht) as [Hst Hno]; split; [exact Hst|].
    intros [Ho | Ho]; [discriminate | contradiction].
  - simpl in Ht; rewrite run_cons; simpl.
    destruct (IH st L Hlu Hw Ht) as [Hst Hno]; split; [exact Hst|].
    intros [Ho | Ho]; [discriminate | contradiction].
Qed.

(** As long as POST /api/detection is never used, object_detected is the
    boolean (position != 'STOP') in every reachable state: it holds
    initially, POST /api/manual derives it so, and the watchdog sets STOP
    together with False. *)
Theorem manual_only_object_detected_consistent :
  forall t0 evs,
    forallb (fun e => negb (is_detection e)) evs = true ->
    object_detected (fst (run (init_state t0) evs))
      = od_of_position (position (fst (run (init_state t0) evs))).
Proof.
  intros t0 evs.
  assert (H0 : object_detected (init_state t0) = od_of_position (position (init_state t0)))
    by reflexivity.
  revert H0; generalize (init_state t0) as st.
  induction evs as [|e evs IH]; intros st Hst Hw; [exact Hst|].
  simpl in Hw; apply andb_prop in Hw as [He Hw].
  rewrite run_cons; simpl fst; apply IH; [|exact Hw].
  destruct e as [gj t1 t2 | gj t1 t2 | n1 n2 | t]; try discriminate.
  - rewrite fst_step_manual.
    destruct (manual_control_cases st gj t1 t2) as [E | [pos [_ [_ E]]]];
      rewrite E; [exact Hst | reflexivity].
  - rewrite fst_step_tick.
    destruct (auto_reset_tick_cases st n1 n2) as [E | E]; rewrite E; [exact Hst | reflexivity].
  - exact Hst.
Qed.

(** ** Witnesses of the further properties *)

Lemma last_update_never_cleared_witness :
  exists lu', last_update (fst (run (snd (update_detection (init_state 0) left_body 0 7))
                                    [ETick 3000000 3000001; EManual (GJValue JNull) 1 2])) = Some lu'.
Proof.
  apply (last_update_never_cleared _ _ 7); reflexivity.
Defined.

Lemma confidence_kept_without_detection_witness :
  confidence (fst (run (snd (update_detection (init_state 0) left_body 0 0))
                       [EManual (GJValue (JDict [("position", JStr "right")])) 1 2;
                        ETick 3000000 3000000; EReadPosition 3000001]))
  = JFloat (87 # 100).
Proof.
  apply (confidence_kept_without_detection
           [EManual (GJValue (JDict [("position", JStr "right")])) 1 2;
            ETick 3000000 3000000; EReadPosition 3000001]
           (snd (update_detection (init_state 0) left_body 0 0))); reflexivity.
Defined.

Lemma last_update_kept_without_writes_witness :
  last_update (fst (run (snd (update_detection (init_state 0) left_body 0 5))
                        [ETick 3000000 3000000; EReadPosition 3000001])) = Some 5.
Proof.
  apply (last_update_kept_without_writes
           [ETick 3000000 3000000; EReadPosition 3000001]
           (snd (update_detection (init_state 0) left_body 0 5))); reflexivity.
Defined.

Lemma manual_control_changes_only_on_200_witness :
  status (fst (manual_control (init_state 0) (GJValue (JDict [("position", JStr "center")])) 1 2))
    = 200.
Proof.
  apply manual_control_changes_only_on_200; vm_compute; discriminate.
Defined.

Lemma update_detection_change_without_200_witness :
  status (fst (update_detection (init_state 0)
     (GJValue (JDict [("position", JStr "left"); ("confidence", JStr "high")])) 1 2)) = 500
  /\ exists d, GJValue (JDict [("position", JStr "left"); ("confidence", JStr "high")])
                 = GJValue (JDict d)
               /\ format_2f_ok (dict_get d "confidence" (JFloat 0%Q)) = false.
Proof.
  apply update_detection_change_without_200; vm_compute; discriminate.
Defined.

Lemma non_string_position_is_500_witness :
  manual_control (init_state 0) (GJValue (JDict [("position", JInt 3)])) 1 2
    = (mkResponse 500 (BException (AttributeError "object has no attribute 'upper'")),
       init_state 0).
Proof.
  apply (non_string_position_is_500 (init_state 0) [("position", JInt 3)] 1 2); reflexivity.
Defined.

Lemma non_dict_body_is_500_witness :
  update_detection (init_state 0) (GJValue (JList [JStr "LEFT"])) 1 2
    = (mkResponse 500 (BException (AttributeError "object has no attribute 'get'")),
       init_state 0).
Proof.
  apply (non_dict_body_is_500 (init_state 0) (JList [JStr "LEFT"]) 1 2);
    [intros d; discriminate | reflexivity].
Defined.

Lemma manual_control_missing_position_witness :
  manual_control (init_state 0) (GJValue (JDict [])) 1 2 =
    (mkResponse 200 (BManualOk "Motors set to STOP"),
     {| position := "STOP"; timestamp := 1; confidence := JFloat 0%Q;
        object_detected := JBool false; last_update := Some 2 |}).
Proof.
  apply (manual_control_missing_position (init_state 0) [] 1 2); intros [].
Defined.

Lemma watchdog_inert_before_first_write_witness :
  fst (run (init_state 0) [ETick 500000 500000; ETick 99000000 99000000; EReadPosition 99000001])
    = init_state 0.
Proof.
  apply (watchdog_inert_before_first_write
           [ETick 500000 500000; ETick 99000000 99000000; EReadPosition 99000001]
           (init_state 0)); reflexivity.
Defined.

Lemma no_reset_within_threshold_witness :
  fst (run (snd (update_detection (init_state 0) left_body 0 0))
           [ETick 500000 500000; ETick 1000000 1000000; EReadPosition 1900000;
            ETick 2000000 2000000])
    = snd (update_detection (init_state 0) left_body 0 0).
Proof.
  apply (no_reset_within_threshold
           [ETick 500000 500000; ETick 1000000 1000000; EReadPosition 1900000;
            ETick 2000000 2000000] _ 0); reflexivity.
Defined.

Lemma manual_only_object_detected_consistent_witness :
  object_detected (fst (run (init_state 0)
     [EManual (GJValue (JDict [("position", JStr "left")])) 1 1; ETick 3000000 3000000]))
  = od_of_position (position (fst (run (init_state 0)
     [EManual (GJValue (JDict [("position", JStr "left")])) 1 1; ETick 3000000 3000000]))).
Proof.
  apply manual_only_object_detected_consistent; reflexivity.
Defined.
